(** * PyOptik: the material base class

    A shallow embedding of [PyOptik/material/base_class.py]: the two string
    representations of [BaseMaterial], the wavelength range check
    [_check_wavelength] and the decorator [ensure_units].

    Python objects are modelled by the shapes the module manipulates.
    Magnitudes are exact rationals ([Qc]) standing for the floating-point
    numbers of the program; rounding is not modelled.  The receiver [self]
    and the process-wide list of issued warnings form the state threaded
    through every method; a raised exception is a result of its own. *)

From Stdlib Require Import ZArith QArith Qcanon List String Ascii Bool Arith Lia.
From Stdlib Require Import DecimalString.
Import ListNotations.

Set Implicit Arguments.

(** ** Numbers *)

Module Num.

Definition ltb (x y : Qc) : bool :=
  match (x ?= y)%Qc with Lt => true | _ => false end.

Definition gtb (x y : Qc) : bool := ltb y x.

Definition min (x y : Qc) : Qc := if ltb y x then y else x.

Definition max (x y : Qc) : Qc := if ltb x y then y else x.

Definition of_nat (n : nat) : Qc := Q2Qc (inject_Z (Z.of_nat n)).

End Num.

(** ** numpy values: a 0-d value or a 1-d array *)

Inductive nd (A : Type) : Type :=
| Scalar (x : A)
| Array (xs : list A).

Arguments Scalar {A} x.
Arguments Array {A} xs.

Inductive Exception : Type :=
| TypeError
| AttributeError
| ValueError
| IndexError.

Inductive result (A : Type) : Type :=
| Ok (a : A)
| Raise (e : Exception).

Arguments Ok {A} a.
Arguments Raise {A} e.

Module Numpy.

Definition elements {A} (a : nd A) : list A :=
  match a with
  | Scalar x => [x]
  | Array xs => xs
  end.

Definition map {A B} (f : A -> B) (a : nd A) : nd B :=
  match a with
  | Scalar x => Scalar (f x)
  | Array xs => Array (List.map f xs)
  end.

(** A binary elementwise operation with numpy's broadcasting between 0-d
    and 1-d operands; 1-d operands of different lengths broadcast only when
    one of them has a single element. *)
Definition map2 {A B C} (f : A -> B -> C) (a : nd A) (b : nd B)
  : result (nd C) :=
  match a, b with
  | Scalar x, Scalar y => Ok (Scalar (f x y))
  | Scalar x, Array ys => Ok (Array (List.map (f x) ys))
  | Array xs, Scalar y => Ok (Array (List.map (fun x => f x y) xs))
  | Array xs, Array ys =>
      if Nat.eqb (List.length xs) (List.length ys)
      then Ok (Array (List.map (fun p => f (fst p) (snd p)) (combine xs ys)))
      else match xs, ys with
           | [x], _ => Ok (Array (List.map (f x) ys))
           | _, [y] => Ok (Array (List.map (fun x => f x y) xs))
           | _, _ => Raise ValueError
           end
  end.

(** [a | b] on boolean values. *)
Definition or (a b : nd bool) : result (nd bool) := map2 orb a b.

(** [numpy.any]: false on an empty array. *)
Definition any (a : nd bool) : bool := existsb (fun b => b) (elements a).

(** [a.min()] and [a.max()]: a reduction over the elements, which raises
    [ValueError] on a zero-size array. *)
Definition reduce (f : Qc -> Qc -> Qc) (a : nd Qc) : result Qc :=
  match elements a with
  | [] => Raise ValueError
  | x :: xs => Ok (fold_left f xs x)
  end.

Definition min (a : nd Qc) : result Qc := reduce Num.min a.
Definition max (a : nd Qc) : result Qc := reduce Num.max a.

Definition arange (num : nat) : list Qc := List.map Num.of_nat (seq 0 num).

(** [numpy.linspace(start, stop, num)] on scalar endpoints, with the
    default [endpoint=True]: the samples [i * step + start] with
    [step = (stop - start) / (num - 1)], the last one overwritten by
    [stop]. *)
Definition linspace (start stop : Qc) (num : nat) : list Qc :=
  let div := (num - 1)%nat in
  let delta := (stop - start)%Qc in
  let y := arange num in
  let y :=
    if (0 <? div)%nat
    then let step := (delta / Num.of_nat div)%Qc in
         List.map (fun i => (i * step + start)%Qc) y
    else List.map (fun i => (i * delta + start)%Qc) y in
  if (1 <? num)%nat then removelast y ++ [stop] else y.

End Numpy.

(** ** Quantities *)

(** Modelled from the spec: the module [PyOptik.units], which provides
    [meter], is not part of the sources.  The units are physical units of
    length. *)
Inductive Unit : Type :=
| meter
| millimeter
| micrometer
| nanometer.

(** Modelled from the spec: the class [Quantity] of [PyOptik.units] is not
    part of the sources.  A quantity is a numeric value paired with a unit
    of length; [A] is the shape of the value: [Qc] for a scalar, [nd Qc]
    for a scalar or an array, [Qc * Qc] for an array of two elements. *)
Record Quantity (A : Type) : Type := mkQuantity {
  magnitude : A;
  units : Unit
}.

Arguments mkQuantity {A} magnitude units.

(** Modelled from the spec: the operations of [Quantity] are not part of the
    sources.  Quantities support comparison across compatible units, here
    after conversion to the base unit, and [min] and [max], which keep the
    unit. *)
Module Units.

(** Length of one unit, in meters. *)
Definition factor (u : Unit) : Qc :=
  match u with
  | meter => Q2Qc 1
  | millimeter => Q2Qc (1 # 1000)
  | micrometer => Q2Qc (1 # 1000000)
  | nanometer => Q2Qc (1 # 1000000000)
  end.

Definition to_base (x : Qc) (u : Unit) : Qc := (x * factor u)%Qc.

Definition base (q : Quantity Qc) : Qc := to_base (magnitude q) (units q).

(** [q < other] and [q > other] for a scalar [other]: elementwise. *)
Definition lt (q : Quantity (nd Qc)) (other : Quantity Qc) : nd bool :=
  Numpy.map (fun x => Num.ltb (to_base x (units q)) (base other))
            (magnitude q).

Definition gt (q : Quantity (nd Qc)) (other : Quantity Qc) : nd bool :=
  Numpy.map (fun x => Num.gtb (to_base x (units q)) (base other))
            (magnitude q).

(** [q.min()] and [q.max()] keep the unit of [q]. *)
Definition min (q : Quantity (nd Qc)) : result (Quantity Qc) :=
  match Numpy.min (magnitude q) with
  | Ok x => Ok (mkQuantity x (units q))
  | Raise e => Raise e
  end.

Definition max (q : Quantity (nd Qc)) : result (Quantity Qc) :=
  match Numpy.max (magnitude q) with
  | Ok x => Ok (mkQuantity x (units q))
  | Raise e => Raise e
  end.

(** [value * unit] for a bare number or a bare numeric array. *)
Definition mul (value : nd Qc) (u : Unit) : Quantity (nd Qc) :=
  mkQuantity value u.

End Units.

(** ** Materials *)

(** The attribute [wavelength_bound], when it is not [None], holds two
    wavelengths.  Two Python shapes do: a tuple of two scalar quantities, and
    one quantity whose magnitude is a two-element array. *)
Inductive Bound : Type :=
| TupleBound (b : Quantity Qc * Quantity Qc)
| QuantityBound (b : Quantity (Qc * Qc)).

Record BaseMaterial : Type := mkMaterial {
  filename : string;
  wavelength_bound : option Bound
}.

Module Bounds.

(** [min_value, max_value = bound]: iteration over a tuple yields its
    items, iteration over an array quantity yields its elements as
    quantities of the same unit. *)
Definition unpack (b : Bound) : Quantity Qc * Quantity Qc :=
  match b with
  | TupleBound p => p
  | QuantityBound q =>
      (mkQuantity (fst (magnitude q)) (units q),
       mkQuantity (snd (magnitude q)) (units q))
  end.

(** [bound[i]] *)
Definition getitem (b : Bound) (i : nat) : result (Quantity Qc) :=
  match i with
  | 0%nat => Ok (fst (unpack b))
  | 1%nat => Ok (snd (unpack b))
  | _ => Raise IndexError
  end.

(** [bound.units]: a tuple has no such attribute. *)
Definition units_of (b : Bound) : result Unit :=
  match b with
  | TupleBound _ => Raise AttributeError
  | QuantityBound q => Ok (units q)
  end.

End Bounds.

(** ** State and exceptions *)

Record State : Type := mkState {
  self : BaseMaterial;
  warnings : list string
}.

Definition M (A : Type) : Type := State -> result A * State.

Definition ret {A} (a : A) : M A := fun st => (Ok a, st).

Definition raise {A} (e : Exception) : M A := fun st => (Raise e, st).

Definition bind {A B} (m : M A) (k : A -> M B) : M B :=
  fun st =>
    match m st with
    | (Ok a, st') => k a st'
    | (Raise e, st') => (Raise e, st')
    end.

Definition lift {A} (r : result A) : M A := fun st => (r, st).

Definition get_self : M BaseMaterial := fun st => (Ok (self st), st).

(** [warnings.warn(message)]: the call is recorded in [warnings], the list
    of the calls made so far.  Which of the recorded calls reach the user is
    decided afterwards by the filter of the [warnings] module, see
    [Warnings.deliver]. *)
Definition warn (message : string) : M unit :=
  fun st => (Ok tt, mkState (self st) (warnings st ++ [message])).

(** ** Delivery of warnings

    Python's [warnings] module decides for every call of [warnings.warn]
    whether the warning is shown, by the action its filter gives to the
    warning.  All the calls of this class come from one line of one module
    with one category ([UserWarning]), so the actions [default] (once per
    location and text), [module] (once per module and text) and [once]
    (once per text) agree here: a text already in the registry is dropped.
    [UserWarning] meets none of the interpreter's preset filters, which
    leaves it to the action [default].  The action [error], which turns the
    call into an exception, is a setting of the process and is left out. *)

Module Warnings.

Inductive Action : Type :=
| Default
| PerModule
| Once
| Always
| Ignore.

Record Channel : Type := mkChannel {
  registry : list string;
  shown : list string
}.

Definition registered (text : string) (c : Channel) : bool :=
  existsb (String.eqb text) (registry c).

(** One call of [warnings.warn(text)] under the action [a]. *)
Definition warn_step (a : Action) (c : Channel) (text : string) : Channel :=
  match a with
  | Ignore => c
  | Always => mkChannel (registry c) (shown c ++ [text])
  | Default | PerModule | Once =>
      if registered text c then c
      else mkChannel (text :: registry c) (shown c ++ [text])
  end.

(** The channel after the recorded calls, from an empty registry. *)
Definition deliver (a : Action) (calls : list string) : Channel :=
  fold_left (warn_step a) calls (mkChannel [] []).

End Warnings.

Declare Scope monad_scope.
Delimit Scope monad_scope with monad.
Notation "x <- m ;; k" := (bind m (fun x => k))
  (at level 61, m at next level, right associativity) : monad_scope.
Notation "m ;; k" := (bind m (fun _ => k))
  (at level 61, right associativity) : monad_scope.

Local Open Scope monad_scope.
Local Open Scope string_scope.

(** ** The class [BaseMaterial] *)

Section BaseMaterial.

Definition __str__ : M string :=
  self <- get_self ;;
  ret ("Material: " ++ filename self).

Definition __repr__ : M string := __str__.

(** The text an f-string produces for [q.to_compact()]: the quantity
    rescaled to a convenient prefix and formatted by the unit library. *)
Variable compact : Quantity Qc -> string.

Definition _check_wavelength (wavelength_range : Quantity (nd Qc)) : M unit :=
  self <- get_self ;;
  match wavelength_bound self with
  | Some bound =>
      let '(min_value, max_value) := Bounds.unpack bound in
      outside <- lift (Numpy.or (Units.lt wavelength_range min_value)
                                (Units.gt wavelength_range max_value)) ;;
      if Numpy.any outside then
        range_min <- lift (Units.min wavelength_range) ;;
        range_max <- lift (Units.max wavelength_range) ;;
        warn ("Wavelength range goes from " ++ compact range_min
              ++ " to " ++ compact range_max ++ " "
              ++ "which is outside the allowable range of "
              ++ compact min_value ++ " to " ++ compact max_value
              ++ " µm. "
              ++ "[Material: " ++ filename self ++ "]")
      else ret tt
  | None => ret tt
  end.

(** *** The decorator [ensure_units] *)

(** What a caller may supply as [wavelength]: a bare number or bare numeric
    array, or a unit-bearing quantity.  An omitted argument is [None]. *)
Inductive Wavelength : Type :=
| Bare (value : nd Qc)
| Qty (q : Quantity (nd Qc)).

(** [self.wavelength_bound[i].magnitude] *)
Definition bound_magnitude (i : nat) : M Qc :=
  self <- get_self ;;
  match wavelength_bound self with
  | None => raise TypeError
  | Some bound => q <- lift (Bounds.getitem bound i) ;; ret (magnitude q)
  end.

(** [self.wavelength_bound.units] *)
Definition bound_units : M Unit :=
  self <- get_self ;;
  match wavelength_bound self with
  | None => raise AttributeError
  | Some bound => lift (Bounds.units_of bound)
  end.

(** The right-hand side of the assignment made when [wavelength is None];
    the operands of [*] are evaluated from left to right. *)
Definition default_wavelength : M (Quantity (nd Qc)) :=
  start <- bound_magnitude 0 ;;
  stop <- bound_magnitude 1 ;;
  let sweep := Numpy.linspace start stop 100 in
  u <- bound_units ;;
  ret (Units.mul (Array sweep) u).

Section Wrapper.

(** The remaining positional and keyword arguments, and the result of
    the wrapped method. *)
Variables Args R : Type.

Variable func : Quantity (nd Qc) -> Args -> M R.

Definition wrapper (wavelength : option Wavelength) (args : Args) : M R :=
  wavelength <- match wavelength with
                | None => q <- default_wavelength ;; ret (Qty q)
                | Some w => ret w
                end ;;
  (* if not isinstance(wavelength, Quantity): wavelength = wavelength * meter *)
  let wavelength :=
    match wavelength with
    | Qty q => q
    | Bare value => Units.mul value meter
    end in
  func wavelength args.

End Wrapper.

Definition ensure_units {Args R} (func : Quantity (nd Qc) -> Args -> M R)
  : option Wavelength -> Args -> M R :=
  wrapper func.

End BaseMaterial.

(** ** What the specification says, in its own words *)

Module Spec.

(** A quantity [x u] is strictly below, or strictly above, a scalar
    quantity. *)
Definition below (x : Qc) (u : Unit) (q : Quantity Qc) : Prop :=
  (Units.to_base x u < Units.base q)%Qc.

Definition above (x : Qc) (u : Unit) (q : Quantity Qc) : Prop :=
  (Units.base q < Units.to_base x u)%Qc.

(** A quantity [x u] lies in the closed interval from [lo] to [hi]. *)
Definition within (x : Qc) (u : Unit) (lo hi : Quantity Qc) : Prop :=
  (Units.base lo <= Units.to_base x u)%Qc /\
  (Units.to_base x u <= Units.base hi)%Qc.

(** The bound of the material is set and at least one element of the
    range is strictly less than its minimum or strictly greater than its
    maximum. *)
Definition OutOfRange (m : BaseMaterial) (r : Quantity (nd Qc)) : Prop :=
  exists bound,
    wavelength_bound m = Some bound /\
    exists x, In x (Numpy.elements (magnitude r)) /\
              (below x (units r) (fst (Bounds.unpack bound)) \/
               above x (units r) (snd (Bounds.unpack bound))).

(** [q] is the minimum (maximum) of the supplied range. *)
Definition IsMin (q : Quantity Qc) (r : Quantity (nd Qc)) : Prop :=
  units q = units r /\
  In (magnitude q) (Numpy.elements (magnitude r)) /\
  forall x, In x (Numpy.elements (magnitude r)) -> (magnitude q <= x)%Qc.

Definition IsMax (q : Quantity Qc) (r : Quantity (nd Qc)) : Prop :=
  units q = units r /\
  In (magnitude q) (Numpy.elements (magnitude r)) /\
  forall x, In x (Numpy.elements (magnitude r)) -> (x <= magnitude q)%Qc.

(** The template of the advisory. *)
Definition template (range_min range_max min_value max_value file : string)
  : string :=
  "Wavelength range goes from " ++ range_min ++ " to " ++ range_max
  ++ " which is outside the allowable range of " ++ min_value ++ " to "
  ++ max_value ++ " µm. [Material: " ++ file ++ "]".

(** [l] has its consecutive elements all [step] apart. *)
Definition EvenlySpaced (l : list Qc) (step : Qc) : Prop :=
  forall i, (S i < List.length l)%nat ->
            (nth (S i) l 0 - nth i l 0 = step)%Qc.

End Spec.

(** ** Sample data *)

Module Sample.

Definition um (x : Q) : Quantity Qc := mkQuantity (Q2Qc x) micrometer.

(** A tabulated material declared on 0.5 µm .. 2.0 µm, its bound held as
    one two-element quantity. *)
Definition glass : BaseMaterial :=
  mkMaterial "BK7"
    (Some (QuantityBound (mkQuantity (Q2Qc (1 # 2), Q2Qc 2) micrometer))).

(** The same support range held as a tuple of two quantities. *)
Definition glass_tuple : BaseMaterial :=
  mkMaterial "BK7" (Some (TupleBound (um (1 # 2), um 2))).

Definition unbounded : BaseMaterial := mkMaterial "BK7" None.

Definition fresh (m : BaseMaterial) : State := mkState m [].

(** A renderer for the examples: the magnitude as a fraction in lowest
    terms, then the unit. *)
Definition unit_name (u : Unit) : string :=
  match u with
  | meter => "m"
  | millimeter => "mm"
  | micrometer => "um"
  | nanometer => "nm"
  end.

Definition show (q : Quantity Qc) : string :=
  NilZero.string_of_int (Z.to_int (Qnum (magnitude q))) ++ "/"
  ++ NilZero.string_of_uint (Pos.to_uint (Qden (magnitude q))) ++ " "
  ++ unit_name (units q).

(** 0.4 µm, 1 µm and 3 µm as an array; 1550 nm as a scalar. *)
Definition wide : Quantity (nd Qc) :=
  mkQuantity (Array [Q2Qc (4 # 10); Q2Qc 1; Q2Qc 3]) micrometer.

Definition telecom : Quantity (nd Qc) :=
  mkQuantity (Scalar (Q2Qc 1550)) nanometer.

(** 10 µm and 12 µm: every element beyond the declared maximum. *)
Definition far : Quantity (nd Qc) :=
  mkQuantity (Array [Q2Qc 10; Q2Qc 12]) micrometer.

(** A wrapped method that hands back the wavelength it receives. *)
Definition echo (wavelength : Quantity (nd Qc)) (_ : unit)
  : M (Quantity (nd Qc)) :=
  ret wavelength.

(** A material whose two-element bound is held in the wrong order. *)
Definition inverted : BaseMaterial :=
  mkMaterial "BK7"
    (Some (QuantityBound (mkQuantity (Q2Qc 2, Q2Qc (1 # 2)) micrometer))).

(** The elements of [wide] in another order, one of them repeated. *)
Definition wide_shuffled : Quantity (nd Qc) :=
  mkQuantity (Array [Q2Qc 3; Q2Qc (4 # 10); Q2Qc 3; Q2Qc 1]) micrometer.

End Sample.

(** ** Notions used by the further properties *)

Module Behaviour.

(** Later samples of [l] are never below earlier ones. *)
Definition NonDecreasing (l : list Qc) : Prop :=
  forall i j, (i <= j)%nat -> (j < List.length l)%nat ->
              (nth i l 0 <= nth j l 0)%Qc.

(** Two ranges carry the same unit and the same set of values. *)
Definition SameValues (r1 r2 : Quantity (nd Qc)) : Prop :=
  units r1 = units r2 /\
  forall x, In x (Numpy.elements (magnitude r1))
            <-> In x (Numpy.elements (magnitude r2)).

(** A method decorated twice: the inner wrapper is called with the
    quantity the outer one has produced. *)
Definition twice_wrapped {Args R} (func : Quantity (nd Qc) -> Args -> M R)
  : option Wavelength -> Args -> M R :=
  ensure_units (fun q args => ensure_units func (Some (Qty q)) args).

End Behaviour.

(** ** Comparisons and reductions *)

Module NumFacts.

Lemma ltb_lt (x y : Qc) : Num.ltb x y = true <-> (x < y)%Qc.
Proof.
  unfold Num.ltb. rewrite Qclt_alt.
  destruct (x ?= y)%Qc; split; intro H; congruence.
Qed.

Lemma ltb_ge (x y : Qc) : Num.ltb x y = false <-> (y <= x)%Qc.
Proof.
  split; intro H.
  - apply Qcnot_lt_le. intro L. apply ltb_lt in L. congruence.
  - destruct (Num.ltb x y) eqn:E; trivial.
    apply ltb_lt in E. exfalso. exact (Qcle_not_lt _ _ H E).
Qed.

Lemma gtb_gt (x y : Qc) : Num.gtb x y = true <-> (y < x)%Qc.
Proof. unfold Num.gtb. apply ltb_lt. Qed.

Lemma min_cases (x y : Qc) :
  (Num.min x y = x /\ (x <= y)%Qc) \/ (Num.min x y = y /\ (y <= x)%Qc).
Proof.
  unfold Num.min. destruct (Num.ltb y x) eqn:E.
  - right. split; trivial. apply Qclt_le_weak. now apply ltb_lt.
  - left. split; trivial. now apply ltb_ge.
Qed.

Lemma max_cases (x y : Qc) :
  (Num.max x y = x /\ (y <= x)%Qc) \/ (Num.max x y = y /\ (x <= y)%Qc).
Proof.
  unfold Num.max. destruct (Num.ltb x y) eqn:E.
  - right. split; trivial. apply Qclt_le_weak. now apply ltb_lt.
  - left. split; trivial. now apply ltb_ge.
Qed.

(** Folding [min] from [x] over [xs] picks an element of [x :: xs] that
    is below all of them. *)
Lemma fold_min (xs : list Qc) : forall x,
  In (fold_left Num.min xs x) (x :: xs) /\
  forall y, In y (x :: xs) -> (fold_left Num.min xs x <= y)%Qc.
Proof.
  induction xs as [|a xs IH]; intro x; simpl.
  - split; [now left|]. intros y [<-|[]]. apply Qcle_refl.
  - destruct (IH (Num.min x a)) as [Hin Hle]. split.
    + destruct Hin as [Hm|Hin]; [|now right; right].
      destruct (min_cases x a) as [[E _]|[E _]];
        [left|right; left]; congruence.
    + intros y Hy.
      assert (Hmin : (fold_left Num.min xs (Num.min x a) <= Num.min x a)%Qc)
        by (apply Hle; now left).
      destruct Hy as [<-|[<-|Hy]].
      * eapply Qcle_trans; [exact Hmin|].
        destruct (min_cases x a) as [[E L]|[E L]]; rewrite E;
          [apply Qcle_refl|exact L].
      * eapply Qcle_trans; [exact Hmin|].
        destruct (min_cases x a) as [[E L]|[E L]]; rewrite E;
          [exact L|apply Qcle_refl].
      * apply Hle. now right.
Qed.

Lemma fold_max (xs : list Qc) : forall x,
  In (fold_left Num.max xs x) (x :: xs) /\
  forall y, In y (x :: xs) -> (y <= fold_left Num.max xs x)%Qc.
Proof.
  induction xs as [|a xs IH]; intro x; simpl.
  - split; [now left|]. intros y [<-|[]]. apply Qcle_refl.
  - destruct (IH (Num.max x a)) as [Hin Hle]. split.
    + destruct Hin as [Hm|Hin]; [|now right; right].
      destruct (max_cases x a) as [[E _]|[E _]];
        [left|right; left]; congruence.
    + intros y Hy.
      assert (Hmax : (Num.max x a <= fold_left Num.max xs (Num.max x a))%Qc)
        by (apply Hle; now left).
      destruct Hy as [<-|[<-|Hy]].
      * eapply Qcle_trans; [|exact Hmax].
        destruct (max_cases x a) as [[E L]|[E L]]; rewrite E;
          [apply Qcle_refl|exact L].
      * eapply Qcle_trans; [|exact Hmax].
        destruct (max_cases x a) as [[E L]|[E L]]; rewrite E;
          [exact L|apply Qcle_refl].
      * apply Hle. now right.
Qed.

End NumFacts.

Module NumpyFacts.

Lemma combine_map {A B C} (f : A -> B) (g : A -> C) (xs : list A) :
  combine (List.map f xs) (List.map g xs) = List.map (fun x => (f x, g x)) xs.
Proof. induction xs as [|x xs IH]; simpl; [|rewrite IH]; reflexivity. Qed.

(** The disjunction of two masks computed from one array never fails to
    broadcast. *)
Lemma or_map {A} (f g : A -> bool) (a : nd A) :
  Numpy.or (Numpy.map f a) (Numpy.map g a)
  = Ok (Numpy.map (fun x => f x || g x) a).
Proof.
  destruct a as [x|xs]; simpl; trivial.
  unfold Numpy.or, Numpy.map2.
  rewrite !length_map, Nat.eqb_refl, combine_map, List.map_map.
  reflexivity.
Qed.

Lemma elements_map {A B} (f : A -> B) (a : nd A) :
  Numpy.elements (Numpy.map f a) = List.map f (Numpy.elements a).
Proof. destruct a; reflexivity. Qed.

Lemma any_map {A} (p : A -> bool) (a : nd A) :
  Numpy.any (Numpy.map p a) = existsb p (Numpy.elements a).
Proof.
  unfold Numpy.any. rewrite elements_map.
  induction (Numpy.elements a) as [|x xs IH]; simpl; [|rewrite IH];
    reflexivity.
Qed.

Lemma min_spec (a : nd Qc) :
  Numpy.elements a <> [] ->
  exists m, Numpy.min a = Ok m /\ In m (Numpy.elements a) /\
            forall x, In x (Numpy.elements a) -> (m <= x)%Qc.
Proof.
  unfold Numpy.min, Numpy.reduce. intro Hne.
  destruct (Numpy.elements a) as [|x xs]; [congruence|].
  eexists. split; [reflexivity|]. apply NumFacts.fold_min.
Qed.

Lemma max_spec (a : nd Qc) :
  Numpy.elements a <> [] ->
  exists m, Numpy.max a = Ok m /\ In m (Numpy.elements a) /\
            forall x, In x (Numpy.elements a) -> (x <= m)%Qc.
Proof.
  unfold Numpy.max, Numpy.reduce. intro Hne.
  destruct (Numpy.elements a) as [|x xs]; [congruence|].
  eexists. split; [reflexivity|]. apply NumFacts.fold_max.
Qed.

End NumpyFacts.

(** ** What the filter delivers *)

Module WarningsFacts.

Import Warnings.

Lemma registered_iff (text : string) (c : Channel) :
  registered text c = true <-> In text (registry c).
Proof.
  unfold registered. rewrite existsb_exists. split.
  - intros [t [Hin Heq]]. apply String.eqb_eq in Heq. now subst.
  - intro Hin. exists text. split; trivial. apply String.eqb_refl.
Qed.

Lemma deliver_snoc (a : Action) (calls : list string) (text : string) :
  deliver a (calls ++ [text]) = warn_step a (deliver a calls) text.
Proof. unfold deliver. now rewrite fold_left_app. Qed.

Lemma deliver_twice (a : Action) (calls : list string) (text : string) :
  deliver a (calls ++ [text; text])
  = warn_step a (warn_step a (deliver a calls) text) text.
Proof.
  change [text; text] with ([text] ++ [text])%list.
  now rewrite app_assoc, !deliver_snoc.
Qed.

(** Under [default] the registry holds the texts of the calls made. *)
Lemma default_registry (calls : list string) (text : string) :
  In text (registry (deliver Default calls)) <-> In text calls.
Proof.
  induction calls as [|t calls IH] using rev_ind; [reflexivity|].
  rewrite deliver_snoc, in_app_iff. cbn [warn_step].
  destruct (registered t (deliver Default calls)) eqn:R.
  - rewrite IH. split; [now left|].
    intros [H|[<-|[]]]; trivial. now apply IH, registered_iff.
  - cbn [registry In]. rewrite IH. simpl. tauto.
Qed.

Lemma always_twice (calls : list string) (text : string) :
  shown (deliver Always (calls ++ [text; text]))
  = (shown (deliver Always calls) ++ [text; text])%list.
Proof.
  rewrite deliver_twice. cbn [warn_step shown].
  now rewrite <- app_assoc.
Qed.

Lemma default_twice_fresh (calls : list string) (text : string) :
  ~ In text calls ->
  shown (deliver Default (calls ++ [text; text]))
  = (shown (deliver Default calls) ++ [text])%list.
Proof.
  intro Hfresh. rewrite deliver_twice. cbn [warn_step].
  destruct (registered text (deliver Default calls)) eqn:R.
  - exfalso. apply Hfresh. now apply default_registry, registered_iff.
  - unfold registered at 1. cbn [registry existsb].
    now rewrite String.eqb_refl.
Qed.

Lemma default_twice_repeated (calls : list string) (text : string) :
  In text calls ->
  shown (deliver Default (calls ++ [text; text]))
  = shown (deliver Default calls).
Proof.
  intro Hin. rewrite deliver_twice. cbn [warn_step].
  assert (R : registered text (deliver Default calls) = true)
    by now apply registered_iff, default_registry.
  now rewrite R, R.
Qed.

End WarningsFacts.

(** ** The range check, case by case *)

Section CheckWavelength.

Variable compact : Quantity Qc -> string.

Lemma outside_iff (bound : Bound) (r : Quantity (nd Qc)) :
  existsb (fun x =>
             Num.ltb (Units.to_base x (units r))
                     (Units.base (fst (Bounds.unpack bound)))
             || Num.gtb (Units.to_base x (units r))
                        (Units.base (snd (Bounds.unpack bound))))
          (Numpy.elements (magnitude r)) = true
  <-> exists x, In x (Numpy.elements (magnitude r)) /\
                (Spec.below x (units r) (fst (Bounds.unpack bound)) \/
                 Spec.above x (units r) (snd (Bounds.unpack bound))).
Proof.
  rewrite existsb_exists. unfold Spec.below, Spec.above.
  split; intros [x [Hin H]]; exists x; split; trivial.
  - apply orb_true_iff in H as [H|H]; [left; now apply NumFacts.ltb_lt|].
    right. now apply NumFacts.gtb_gt.
  - apply orb_true_iff. destruct H as [H|H];
      [left; now apply NumFacts.ltb_lt|right; now apply NumFacts.gtb_gt].
Qed.

(** One call either finds the range out of bounds and appends exactly the
    templated advisory, or leaves the state as it was; it returns
    normally in both cases. *)
Lemma check_outcome (st : State) (r : Quantity (nd Qc)) :
  (Spec.OutOfRange (self st) r /\
   exists bound lo hi,
     wavelength_bound (self st) = Some bound /\
     Units.min r = Ok lo /\ Units.max r = Ok hi /\
     Spec.IsMin lo r /\ Spec.IsMax hi r /\
     _check_wavelength compact r st
     = (Ok tt,
        mkState (self st)
          (warnings st ++
           [Spec.template (compact lo) (compact hi)
              (compact (fst (Bounds.unpack bound)))
              (compact (snd (Bounds.unpack bound)))
              (filename (self st))])))
  \/ (~ Spec.OutOfRange (self st) r /\
      _check_wavelength compact r st = (Ok tt, st)).
Proof.
  unfold _check_wavelength, bind, get_self.
  destruct (wavelength_bound (self st)) as [bound|] eqn:Hb.
  2:{ right. split; [|reflexivity]. intros [b [H _]]. congruence. }
  pose proof (outside_iff bound r) as Hiff.
  destruct (Bounds.unpack bound) as [min_value max_value] eqn:Hu.
  simpl fst in *. simpl snd in *.
  unfold Units.lt, Units.gt, lift. rewrite NumpyFacts.or_map.
  rewrite NumpyFacts.any_map.
  match goal with |- context [existsb ?p ?l] =>
    destruct (existsb p l) eqn:Hany end.
  - left.
    assert (Hex := proj1 Hiff eq_refl).
    assert (Hout : Spec.OutOfRange (self st) r).
    { exists bound. split; trivial. now rewrite Hu. }
    split; trivial.
    assert (Hne : Numpy.elements (magnitude r) <> []).
    { destruct Hex as [x [Hin _]]. intro E. rewrite E in Hin. exact Hin. }
    destruct (NumpyFacts.min_spec _ Hne) as [lo [Hlo [Hlo_in Hlo_le]]].
    destruct (NumpyFacts.max_spec _ Hne) as [hi [Hhi [Hhi_in Hhi_le]]].
    exists bound, (mkQuantity lo (units r)), (mkQuantity hi (units r)).
    split; trivial.
    split; [unfold Units.min; now rewrite Hlo|].
    split; [unfold Units.max; now rewrite Hhi|].
    split; [now repeat split|]. split; [now repeat split|].
    unfold Units.min, Units.max. rewrite Hlo, Hhi, Hu. reflexivity.
  - right. split; [|reflexivity].
    intros [b [Hb' Hex]].
    assert (b = bound) by congruence. subst b. rewrite Hu in Hex.
    apply Hiff in Hex. congruence.
Qed.

Lemma app_one_neq {A} (l : list A) (x : A) : l <> (l ++ [x])%list.
Proof.
  intro E. apply (f_equal (@List.length A)) in E.
  rewrite length_app in E. simpl in E. lia.
Qed.

Lemma not_out_of_range_unset (m : BaseMaterial) (r : Quantity (nd Qc)) :
  wavelength_bound m = None -> ~ Spec.OutOfRange m r.
Proof. intros E [b [H _]]. congruence. Qed.

Lemma not_out_of_range_empty (m : BaseMaterial) (r : Quantity (nd Qc)) :
  Numpy.elements (magnitude r) = [] -> ~ Spec.OutOfRange m r.
Proof. intros E [b [_ [x [H _]]]]. rewrite E in H. exact H. Qed.

Lemma not_out_of_range_within (m : BaseMaterial) (r : Quantity (nd Qc)) :
  (forall bound x,
      wavelength_bound m = Some bound ->
      In x (Numpy.elements (magnitude r)) ->
      Spec.within x (units r) (fst (Bounds.unpack bound))
                  (snd (Bounds.unpack bound))) ->
  ~ Spec.OutOfRange m r.
Proof.
  intros Hin [b [Hb [x [Hx H]]]].
  destruct (Hin b x Hb Hx) as [Hlo Hhi].
  destruct H as [H|H]; [exact (Qcle_not_lt _ _ Hlo H)|].
  exact (Qcle_not_lt _ _ Hhi H).
Qed.

(** C1. [_check_wavelength] issues an advisory if and only if the bound of
    the material is set and some element of the supplied range is strictly
    below the minimum or strictly above the maximum.  When it does, one
    advisory is appended by the call, whatever the number of offending
    elements; the list of warnings is left as it was when the bound is
    unset, when the range is empty and when every element lies within the
    bounds. *)
Theorem check_wavelength_advisory_iff (st : State) (r : Quantity (nd Qc)) :
  let st' := snd (_check_wavelength compact r st) in
  ((exists msg, warnings st' = (warnings st ++ [msg])%list)
   <-> Spec.OutOfRange (self st) r) /\
  (warnings st' = warnings st <-> ~ Spec.OutOfRange (self st) r) /\
  (wavelength_bound (self st) = None -> warnings st' = warnings st) /\
  (Numpy.elements (magnitude r) = [] -> warnings st' = warnings st) /\
  ((forall bound x,
       wavelength_bound (self st) = Some bound ->
       In x (Numpy.elements (magnitude r)) ->
       Spec.within x (units r) (fst (Bounds.unpack bound))
                   (snd (Bounds.unpack bound))) ->
   warnings st' = warnings st).
Proof.
  intro st'. subst st'.
  assert (Hquiet : ~ Spec.OutOfRange (self st) r ->
                   warnings (snd (_check_wavelength compact r st))
                   = warnings st).
  { intro Hn. destruct (check_outcome st r) as [[Ho _]|[_ E]];
      [contradiction|now rewrite E]. }
  repeat split.
  - intros [msg Hmsg].
    destruct (check_outcome st r) as [[Ho _]|[_ E]]; trivial.
    rewrite E in Hmsg. simpl in Hmsg. now apply app_one_neq in Hmsg.
  - intro Ho.
    destruct (check_outcome st r)
      as [[_ (b & lo & hi & _ & _ & _ & _ & _ & E)]|[Hn _]];
      [|contradiction].
    rewrite E. simpl. eauto.
  - intros Hsame Ho.
    destruct (check_outcome st r)
      as [[_ (b & lo & hi & _ & _ & _ & _ & _ & E)]|[Hn _]];
      [|contradiction].
    rewrite E in Hsame. simpl in Hsame. symmetry in Hsame.
    now apply app_one_neq in Hsame.
  - exact Hquiet.
  - intro H. apply Hquiet. now apply not_out_of_range_unset.
  - intro H. apply Hquiet. now apply not_out_of_range_empty.
  - intro H. apply Hquiet. now apply not_out_of_range_within.
Qed.

(** C2. Whenever [_check_wavelength] issues an advisory, its text is the
    template filled, in this order, with the compact forms of the minimum
    and of the maximum of the supplied range, the compact forms of the
    declared minimum and maximum, and the filename of the material; which
    boundary was crossed plays no part. *)
Theorem advisory_message_template
  (st : State) (r : Quantity (nd Qc)) (msg : string) :
  warnings (snd (_check_wavelength compact r st))
  = (warnings st ++ [msg])%list ->
  exists bound lo hi,
    wavelength_bound (self st) = Some bound /\
    Spec.IsMin lo r /\ Spec.IsMax hi r /\
    msg = Spec.template (compact lo) (compact hi)
            (compact (fst (Bounds.unpack bound)))
            (compact (snd (Bounds.unpack bound)))
            (filename (self st)).
Proof.
  intro Hmsg.
  destruct (check_outcome st r)
    as [[_ (b & lo & hi & Hb & _ & _ & Hlo & Hhi & E)]|[_ E]];
    rewrite E in Hmsg; simpl in Hmsg.
  - apply app_inj_tail in Hmsg as [_ <-]. now exists b, lo, hi.
  - now apply app_one_neq in Hmsg.
Qed.

(** C3. [_check_wavelength] is advisory only: on every state and every
    range it returns normally, leaves the material as it was, at most
    extends the list of warnings, and whatever the caller does next
    runs. *)
Theorem check_wavelength_never_blocks (st : State) (r : Quantity (nd Qc)) :
  exists extra,
    _check_wavelength compact r st
    = (Ok tt, mkState (self st) (warnings st ++ extra)) /\
    forall (B : Type) (k : unit -> M B),
      bind (_check_wavelength compact r) k st
      = k tt (mkState (self st) (warnings st ++ extra)).
Proof.
  destruct (check_outcome st r)
    as [[_ (b & lo & hi & _ & _ & _ & _ & _ & E)]|[_ E]].
  - eexists. split; [exact E|]. intros B k. unfold bind. now rewrite E.
  - exists []. rewrite app_nil_r.
    assert (Est : mkState (self st) (warnings st) = st)
      by (destruct st; reflexivity).
    rewrite Est. split; [exact E|]. intros B k. unfold bind. now rewrite E.
Qed.

(** Two calls of [_check_wavelength] on the same out-of-range input call
    [warnings.warn] twice with the same text. *)
Lemma check_twice_calls (st : State) (r : Quantity (nd Qc)) :
  Spec.OutOfRange (self st) r ->
  exists msg,
    (_check_wavelength compact r ;; _check_wavelength compact r) st
    = (Ok tt, mkState (self st) (warnings st ++ [msg; msg])).
Proof.
  intro Ho.
  destruct (check_outcome st r)
    as [[_ (b & lo & hi & Hb & Hlo & Hhi & _ & _ & E)]|[Hn _]];
    [|contradiction].
  eexists. unfold bind. rewrite E.
  match goal with |- context [_check_wavelength compact r ?s] =>
    destruct (check_outcome s r)
      as [[_ (b' & lo' & hi' & Hb' & Hlo' & Hhi' & _ & _ & E')]|[Hn _]]
  end.
  - rewrite E'. simpl in *.
    assert (b' = b) by congruence.
    assert (lo' = lo) by congruence.
    assert (hi' = hi) by congruence.
    subst. rewrite <- app_assoc. reflexivity.
  - exfalso. apply Hn. exact Ho.
Qed.

(** C8, amended. Two calls of [_check_wavelength] on the same out-of-range
    input call [warnings.warn] twice with the same text: the method keeps
    no memo of its own.  Under the action [always] both calls are shown.
    Under the action [default] the repeated text is shown at most once: once
    when it had not been issued before, not at all when it had. *)
Theorem check_wavelength_twice (st : State) (r : Quantity (nd Qc)) :
  Spec.OutOfRange (self st) r ->
  exists msg,
    (_check_wavelength compact r ;; _check_wavelength compact r) st
    = (Ok tt, mkState (self st) (warnings st ++ [msg; msg])) /\
    Warnings.shown
      (Warnings.deliver Warnings.Always (warnings st ++ [msg; msg]))
    = (Warnings.shown (Warnings.deliver Warnings.Always (warnings st))
       ++ [msg; msg])%list /\
    (~ In msg (warnings st) ->
     Warnings.shown
       (Warnings.deliver Warnings.Default (warnings st ++ [msg; msg]))
     = (Warnings.shown (Warnings.deliver Warnings.Default (warnings st))
        ++ [msg])%list) /\
    (In msg (warnings st) ->
     Warnings.shown
       (Warnings.deliver Warnings.Default (warnings st ++ [msg; msg]))
     = Warnings.shown (Warnings.deliver Warnings.Default (warnings st))).
Proof.
  intro Ho. destruct (check_twice_calls st Ho) as [msg E].
  exists msg. split; [exact E|]. split; [|split].
  - apply WarningsFacts.always_twice.
  - apply WarningsFacts.default_twice_fresh.
  - apply WarningsFacts.default_twice_repeated.
Qed.

End CheckWavelength.

(** ** The default sweep *)

Module LinspaceFacts.

Local Open Scope Qc_scope.

Lemma of_nat_succ (n : nat) : Num.of_nat (S n) = Num.of_nat n + 1.
Proof.
  unfold Num.of_nat. apply Qc_is_canon.
  unfold Qcplus, Q2Qc. cbn [this].
  rewrite !Qred_correct, Nat2Z.inj_succ. unfold Z.succ.
  rewrite inject_Z_plus. reflexivity.
Qed.

Lemma of_nat_succ_nonzero (n : nat) : Num.of_nat (S n) <> 0.
Proof.
  unfold Num.of_nat. intro E. apply Q2Qc_eq_iff in E.
  unfold Qeq in E. simpl in E. lia.
Qed.

(** With at least two samples, the list is the affine samples but the
    last, followed by [stop]. *)
Lemma linspace_unfold (start stop : Qc) (n : nat) :
  Numpy.linspace start stop (S (S n))
  = (List.map (fun i : nat =>
                 Num.of_nat i * ((stop - start) / Num.of_nat (S n)) + start)
              (seq 0 (S n))
     ++ [stop])%list.
Proof.
  unfold Numpy.linspace, Numpy.arange.
  replace (S (S n) - 1)%nat with (S n) by lia.
  change (0 <? S n)%nat with true. change (1 <? S (S n))%nat with true.
  cbv iota. rewrite List.map_map.
  rewrite (seq_S (S n) 0), List.map_app. cbn [List.map].
  rewrite removelast_last. reflexivity.
Qed.

Lemma linspace_length (start stop : Qc) (n : nat) :
  List.length (Numpy.linspace start stop (S (S n))) = S (S n).
Proof.
  rewrite linspace_unfold, length_app, length_map, length_seq. simpl. lia.
Qed.

Lemma linspace_nth (start stop : Qc) (n i : nat) :
  (i < S n)%nat ->
  nth i (Numpy.linspace start stop (S (S n))) 0
  = Num.of_nat i * ((stop - start) / Num.of_nat (S n)) + start.
Proof.
  intro Hi. rewrite linspace_unfold.
  rewrite app_nth1 by (rewrite length_map, length_seq; exact Hi).
  set (f := fun i : nat => _).
  rewrite (nth_indep _ 0 (f 0%nat))
    by (rewrite length_map, length_seq; exact Hi).
  rewrite map_nth, seq_nth by exact Hi. reflexivity.
Qed.

Lemma linspace_first (start stop : Qc) (n : nat) :
  nth 0 (Numpy.linspace start stop (S (S n))) 0 = start.
Proof.
  rewrite linspace_nth by lia.
  change (Num.of_nat 0) with (Q2Qc 0). ring.
Qed.

Lemma linspace_last (start stop : Qc) (n : nat) :
  nth (S n) (Numpy.linspace start stop (S (S n))) 0 = stop.
Proof.
  rewrite linspace_unfold.
  rewrite app_nth2 by (rewrite length_map, length_seq; lia).
  rewrite length_map, length_seq, Nat.sub_diag. reflexivity.
Qed.

Lemma linspace_evenly_spaced (start stop : Qc) (n : nat) :
  Spec.EvenlySpaced (Numpy.linspace start stop (S (S n)))
                    ((stop - start) / Num.of_nat (S n)).
Proof.
  intros i Hi. rewrite linspace_length in Hi.
  set (step := (stop - start) / Num.of_nat (S n)).
  assert (Hstep : Num.of_nat (S n) * step = stop - start)
    by (apply Qcmult_div_r, of_nat_succ_nonzero).
  rewrite (linspace_nth start stop (n := n) (i := i)) by lia.
  fold step.
  destruct (Nat.eq_dec i n) as [->|Hne].
  - rewrite linspace_last. rewrite of_nat_succ in Hstep.
    replace stop with ((Num.of_nat n + 1) * step + start)
      by (rewrite Hstep; ring).
    ring.
  - rewrite linspace_nth by lia. fold step. rewrite of_nat_succ. ring.
Qed.

End LinspaceFacts.

(** ** String representations *)

(** C4. [__str__] and [__repr__] return the same string, ["Material: "]
    followed by the filename of the material, and leave the state as it
    was. *)
Theorem repr_same_as_str (st : State) :
  __repr__ st = __str__ st /\
  __str__ st = (Ok ("Material: " ++ filename (self st)), st).
Proof. split; reflexivity. Qed.

(** ** The decorator *)

Section EnsureUnits.

Local Open Scope Qc_scope.

(** The default wavelength, by the shape of the bound. *)
Lemma default_wavelength_cases (st : State) :
  default_wavelength st
  = match wavelength_bound (self st) with
    | None => (Raise TypeError, st)
    | Some (TupleBound _) => (Raise AttributeError, st)
    | Some (QuantityBound b) =>
        (Ok (mkQuantity
               (Array (Numpy.linspace (fst (magnitude b))
                                      (snd (magnitude b)) 100))
               (units b)), st)
    end.
Proof.
  unfold default_wavelength, bound_magnitude, bound_units, bind, get_self,
    raise, lift, ret.
  destruct (wavelength_bound (self st)) as [[p|b]|] eqn:Hb;
    cbv beta iota delta [Bounds.getitem]; rewrite ?Hb;
    cbv beta iota delta [Bounds.units_of]; reflexivity.
Qed.

Lemma wrapper_default (Args R : Type)
      (func : Quantity (nd Qc) -> Args -> M R) (args : Args) (st : State) :
  wrapper func None args st
  = match default_wavelength st with
    | (Ok q, st') => func q args st'
    | (Raise e, st') => (Raise e, st')
    end.
Proof.
  unfold wrapper, bind, ret.
  destruct (default_wavelength st) as [[q|e] st']; reflexivity.
Qed.

(** C5, amended. For every material whose [wavelength_bound] is one
    quantity holding two elements, a wrapped method called without a
    wavelength receives a sweep of exactly 100 evenly spaced values that
    starts at the magnitude of the first element and ends at the magnitude
    of the second, carrying the unit of the bound. *)
Theorem default_sweep_of_quantity_bound
  (st : State) (b : Quantity (Qc * Qc)) :
  wavelength_bound (self st) = Some (QuantityBound b) ->
  exists sweep,
    List.length sweep = 100%nat /\
    nth 0 sweep 0 = fst (magnitude b) /\
    nth 99 sweep 0 = snd (magnitude b) /\
    Spec.EvenlySpaced sweep
      ((snd (magnitude b) - fst (magnitude b)) / Num.of_nat 99) /\
    forall (Args R : Type) (func : Quantity (nd Qc) -> Args -> M R)
           (args : Args),
      ensure_units func None args st
      = func (mkQuantity (Array sweep) (units b)) args st.
Proof.
  intro Hb.
  exists (Numpy.linspace (fst (magnitude b)) (snd (magnitude b)) 100).
  split; [apply (@LinspaceFacts.linspace_length _ _ 98)|].
  split; [apply (@LinspaceFacts.linspace_first _ _ 98)|].
  split; [apply (@LinspaceFacts.linspace_last _ _ 98)|].
  split; [apply (@LinspaceFacts.linspace_evenly_spaced _ _ 98)|].
  intros Args R func args.
  unfold ensure_units.
  rewrite wrapper_default, default_wavelength_cases, Hb. reflexivity.
Qed.

(** C6. A bare number or bare numeric array reaches the wrapped method
    with the unit [meter] attached, its value untouched: the number is
    read as a length in meters. *)
Theorem bare_wavelength_in_meters
  (Args R : Type) (func : Quantity (nd Qc) -> Args -> M R)
  (value : nd Qc) (args : Args) (st : State) :
  ensure_units func (Some (Bare value)) args st
  = func (mkQuantity value meter) args st /\
  forall x, Units.to_base x meter = x.
Proof.
  split; [reflexivity|].
  intro x. unfold Units.to_base, Units.factor. ring.
Qed.

(** C7. A wavelength that already is a quantity reaches the wrapped
    method as it is, with its own unit; the remaining arguments are
    handed over and the outcome of the wrapped method is the outcome of
    the call. *)
Theorem quantity_wavelength_unchanged
  (Args R : Type) (func : Quantity (nd Qc) -> Args -> M R)
  (q : Quantity (nd Qc)) (args : Args) (st : State) :
  ensure_units func (Some (Qty q)) args st = func q args st.
Proof. reflexivity. Qed.

(** C9. For every material whose [wavelength_bound] is unset, a wrapped
    method called without a wavelength fails with [TypeError] on
    [wavelength_bound[0]]; the wrapped method is not reached and the
    state is as before the call. *)
Theorem default_sweep_unset_bound (st : State) :
  wavelength_bound (self st) = None ->
  bound_magnitude 0 st = (Raise TypeError, st) /\
  forall (Args R : Type) (func : Quantity (nd Qc) -> Args -> M R)
         (args : Args),
    ensure_units func None args st = (Raise TypeError, st).
Proof.
  intro Hb. split.
  - unfold bound_magnitude, bind, get_self, raise. now rewrite Hb.
  - intros Args R func args.
    unfold ensure_units.
    rewrite wrapper_default, default_wavelength_cases, Hb. reflexivity.
Qed.

(** C10. The default sweep reads [units] on the bound itself.  When the
    bound is a tuple of two quantities, both elements and their
    magnitudes are read, then [wavelength_bound.units] fails with
    [AttributeError] and the wrapped method is not reached; a call without
    a wavelength reaches the wrapped method exactly when the bound is one
    two-element quantity. *)
Theorem default_sweep_needs_quantity_bound (st : State) :
  (forall p,
      wavelength_bound (self st) = Some (TupleBound p) ->
      bound_magnitude 0 st = (Ok (magnitude (fst p)), st) /\
      bound_magnitude 1 st = (Ok (magnitude (snd p)), st) /\
      bound_units st = (Raise AttributeError, st) /\
      forall (Args R : Type) (func : Quantity (nd Qc) -> Args -> M R)
             (args : Args),
        ensure_units func None args st = (Raise AttributeError, st)) /\
  ((exists q,
       forall (Args R : Type) (func : Quantity (nd Qc) -> Args -> M R)
              (args : Args),
         ensure_units func None args st = func q args st)
   <-> exists b, wavelength_bound (self st) = Some (QuantityBound b)).
Proof.
  split.
  - intros p Hb.
    unfold bound_magnitude, bound_units, bind, get_self, lift, ret.
    rewrite Hb. repeat split.
    intros Args R func args.
    unfold ensure_units.
    rewrite wrapper_default, default_wavelength_cases, Hb. reflexivity.
  - split.
    + intros [q Hq].
      specialize (Hq unit unit (fun _ _ => ret tt) tt).
      unfold ensure_units in Hq.
      rewrite wrapper_default, default_wavelength_cases in Hq.
      destruct (wavelength_bound (self st)) as [[p|b]|];
        try discriminate Hq.
      now exists b.
    + intros [b Hb].
      destruct (default_sweep_of_quantity_bound st Hb)
        as [sweep (_ & _ & _ & _ & H)].
      now exists (mkQuantity (Array sweep) (units b)).
Qed.

End EnsureUnits.

(** ** The theorems at the sample data *)

Section Instances.

Import Sample.

Local Open Scope Qc_scope.

Lemma check_wavelength_advisory_iff_witness :
  wavelength_bound (self (fresh unbounded)) = None /\
  warnings (snd (_check_wavelength show wide (fresh unbounded)))
  = warnings (fresh unbounded).
Proof.
  split; [reflexivity|].
  apply (proj1 (proj2 (proj2
           (@check_wavelength_advisory_iff show (fresh unbounded) wide)))).
  reflexivity.
Defined.

Lemma advisory_message_template_witness :
  exists bound lo hi,
    wavelength_bound (self (fresh glass)) = Some bound /\
    Spec.IsMin lo wide /\ Spec.IsMax hi wide /\
    ("Wavelength range goes from 2/5 um to 3/1 um which is outside the "
     ++ "allowable range of 1/2 um to 2/1 um µm. [Material: BK7]")%string
    = Spec.template (show lo) (show hi)
        (show (fst (Bounds.unpack bound)))
        (show (snd (Bounds.unpack bound)))
        (filename (self (fresh glass))).
Proof.
  apply (@advisory_message_template show (fresh glass) wide).
  vm_compute. reflexivity.
Defined.

Lemma check_wavelength_twice_witness :
  exists msg,
    (_check_wavelength show wide ;; _check_wavelength show wide)
      (fresh glass)
    = (Ok tt, mkState (self (fresh glass))
                      (warnings (fresh glass) ++ [msg; msg])) /\
    Warnings.shown
      (Warnings.deliver Warnings.Always
         (warnings (fresh glass) ++ [msg; msg]))
    = (Warnings.shown
         (Warnings.deliver Warnings.Always (warnings (fresh glass)))
       ++ [msg; msg])%list /\
    (~ In msg (warnings (fresh glass)) ->
     Warnings.shown
       (Warnings.deliver Warnings.Default
          (warnings (fresh glass) ++ [msg; msg]))
     = (Warnings.shown
          (Warnings.deliver Warnings.Default (warnings (fresh glass)))
        ++ [msg])%list) /\
    (In msg (warnings (fresh glass)) ->
     Warnings.shown
       (Warnings.deliver Warnings.Default
          (warnings (fresh glass) ++ [msg; msg]))
     = Warnings.shown
         (Warnings.deliver Warnings.Default (warnings (fresh glass)))).
Proof.
  apply (@check_wavelength_twice show (fresh glass) wide).
  eexists. split; [reflexivity|].
  exists (Q2Qc 3). split; [simpl; auto|].
  right. vm_compute. reflexivity.
Defined.

(** C8, as stated, fails under the action [default]: two calls on the same
    out-of-range input record two calls of [warnings.warn], of which one
    advisory is shown, not two. *)
Lemma repeated_advisory_shown_once :
  let calls :=
    warnings
      (snd ((_check_wavelength show wide ;; _check_wavelength show wide)
              (fresh glass))) in
  List.length calls = 2%nat /\
  List.length (Warnings.shown (Warnings.deliver Warnings.Default calls))
  = 1%nat /\
  List.length (Warnings.shown (Warnings.deliver Warnings.Default calls))
  <> 2%nat.
Proof. vm_compute. repeat split. discriminate. Qed.

(** C5, as stated, fails on a material whose bound is set as a tuple of
    two quantities (0.5 µm, 2.0 µm): the call without a wavelength raises
    [AttributeError] and the wrapped method receives no sweep at all. *)
Lemma default_sweep_fails_on_tuple_bound :
  wavelength_bound (self (fresh glass_tuple)) <> None /\
  ensure_units echo None tt (fresh glass_tuple)
  = (Raise AttributeError, fresh glass_tuple) /\
  forall q : Quantity (nd Qc),
    ensure_units echo None tt (fresh glass_tuple) <> echo q tt (fresh glass_tuple).
Proof.
  assert (E : ensure_units echo None tt (fresh glass_tuple)
              = (Raise AttributeError, fresh glass_tuple)).
  { unfold ensure_units.
    rewrite wrapper_default, default_wavelength_cases. reflexivity. }
  split; [discriminate|]. split; [exact E|].
  intros q H. rewrite E in H. discriminate H.
Qed.

Lemma default_sweep_of_quantity_bound_witness :
  wavelength_bound (self (fresh glass))
  = Some (QuantityBound (mkQuantity (Q2Qc (1 # 2), Q2Qc 2) micrometer)) /\
  exists sweep,
    List.length sweep = 100%nat /\
    nth 0 sweep 0 = Q2Qc (1 # 2) /\
    nth 99 sweep 0 = Q2Qc 2 /\
    Spec.EvenlySpaced sweep ((Q2Qc 2 - Q2Qc (1 # 2)) / Num.of_nat 99) /\
    forall (Args R : Type) (func : Quantity (nd Qc) -> Args -> M R)
           (args : Args),
      ensure_units func None args (fresh glass)
      = func (mkQuantity (Array sweep) micrometer) args (fresh glass).
Proof.
  split; [reflexivity|].
  apply (@default_sweep_of_quantity_bound (fresh glass)
           (mkQuantity (Q2Qc (1 # 2), Q2Qc 2) micrometer)).
  reflexivity.
Defined.

Lemma default_sweep_unset_bound_witness :
  wavelength_bound (self (fresh unbounded)) = None /\
  ensure_units echo None tt (fresh unbounded)
  = (Raise TypeError, fresh unbounded).
Proof.
  split; [reflexivity|].
  apply (@default_sweep_unset_bound (fresh unbounded)). reflexivity.
Defined.

Lemma default_sweep_needs_quantity_bound_witness :
  wavelength_bound (self (fresh glass_tuple))
  = Some (TupleBound (um (1 # 2), um 2)) /\
  ensure_units echo None tt (fresh glass_tuple)
  = (Raise AttributeError, fresh glass_tuple).
Proof.
  split; [reflexivity|].
  apply (proj1 (@default_sweep_needs_quantity_bound (fresh glass_tuple))
               (um (1 # 2), um 2)).
  reflexivity.
Defined.

(** The wrapper on the sample data: the sweep starts at 1/2, and its
    second sample is 1/2 + 3/198. *)
Example sweep_head :
  firstn 2 (Numpy.linspace (Q2Qc (1 # 2)) (Q2Qc 2) 100)
  = [Q2Qc (1 # 2); Q2Qc (17 # 33)].
Proof.
  apply (f_equal2 (@cons Qc)); [|apply (f_equal2 (@cons Qc)); trivial];
    apply Qc_is_canon; vm_compute; reflexivity.
Qed.

(** Two offending elements, one advisory. *)
Example wide_one_advisory :
  warnings (snd (_check_wavelength show wide (fresh glass)))
  = [("Wavelength range goes from 2/5 um to 3/1 um which is outside the "
      ++ "allowable range of 1/2 um to 2/1 um µm. [Material: BK7]")%string].
Proof. vm_compute. reflexivity. Qed.

Example far_returns_normally :
  fst (_check_wavelength show far (fresh glass)) = Ok tt /\
  self (snd (_check_wavelength show far (fresh glass))) = glass.
Proof. split; vm_compute; reflexivity. Qed.

Example telecom_within_bounds :
  _check_wavelength show telecom (fresh glass) = (Ok tt, fresh glass).
Proof. vm_compute. reflexivity. Qed.

Example bare_number_example :
  fst (ensure_units echo (Some (Bare (Scalar (Q2Qc (155 # 100))))) tt
               (fresh unbounded))
  = Ok (mkQuantity (Scalar (Q2Qc (155 # 100))) meter).
Proof. reflexivity. Qed.

End Instances.

(** ** Further properties: orders, units and the sweep *)

Module OrderFacts.

Local Open Scope Qc_scope.

Lemma factor_pos (u : Unit) : 0 < Units.factor u.
Proof. destruct u; vm_compute; reflexivity. Qed.

Lemma to_base_le (x y : Qc) (u : Unit) :
  x <= y -> Units.to_base x u <= Units.to_base y u.
Proof.
  intro H. unfold Units.to_base.
  apply Qcmult_le_compat_r; [exact H|]. apply Qclt_le_weak, factor_pos.
Qed.

Lemma to_base_lt (x y : Qc) (u : Unit) :
  x < y -> Units.to_base x u < Units.to_base y u.
Proof.
  intro H. unfold Units.to_base.
  apply Qcmult_lt_compat_r; [apply factor_pos|exact H].
Qed.

Lemma of_nat_le (i j : nat) : (i <= j)%nat -> Num.of_nat i <= Num.of_nat j.
Proof.
  intro H. unfold Num.of_nat, Qcle, Q2Qc. cbn [this].
  rewrite !Qred_correct. unfold Qle. simpl. lia.
Qed.

Lemma of_nat_lt (i j : nat) : (i < j)%nat -> Num.of_nat i < Num.of_nat j.
Proof.
  intro H. unfold Num.of_nat, Qclt, Q2Qc. cbn [this].
  rewrite !Qred_correct. unfold Qlt. simpl. lia.
Qed.

Lemma of_nat_nonneg (i : nat) : 0 <= Num.of_nat i.
Proof. apply (of_nat_le (i := 0) (j := i)). lia. Qed.

Lemma of_nat_succ_pos (n : nat) : 0 < Num.of_nat (S n).
Proof. apply (of_nat_lt (i := 0) (j := S n)). lia. Qed.

Section Step.

Variables (start stop : Qc) (n : nat).

Let step : Qc := (stop - start) / Num.of_nat (S n).

Lemma step_total : Num.of_nat (S n) * step = stop - start.
Proof. apply Qcmult_div_r, LinspaceFacts.of_nat_succ_nonzero. Qed.

Lemma step_nonneg : start <= stop -> 0 <= step.
Proof.
  intro H. apply (Qcmult_lt_0_le_reg_r 0 step (Num.of_nat (S n)));
    [apply of_nat_succ_pos|].
  rewrite (Qcmult_comm step), step_total.
  replace (0 * Num.of_nat (S n)) with (start - start) by ring.
  unfold Qcminus. apply Qcplus_le_compat; [exact H|apply Qcle_refl].
Qed.

(** With ordered endpoints every sample lies between them. *)
Lemma linspace_within (x : Qc) :
  start <= stop ->
  In x (Numpy.linspace start stop (S (S n))) ->
  start <= x /\ x <= stop.
Proof.
  intros Hle Hin.
  destruct (In_nth _ _ 0 Hin) as [i [Hi <-]].
  rewrite LinspaceFacts.linspace_length in Hi.
  destruct (Nat.eq_dec i (S n)) as [->|Hne].
  - rewrite LinspaceFacts.linspace_last.
    split; [exact Hle|apply Qcle_refl].
  - rewrite LinspaceFacts.linspace_nth by lia. fold step. split.
    + replace start with (0 * step + start) at 1 by ring.
      apply Qcplus_le_compat; [|apply Qcle_refl].
      apply Qcmult_le_compat_r;
        [apply of_nat_nonneg|now apply step_nonneg].
    + replace stop with (Num.of_nat (S n) * step + start)
        by (rewrite step_total; ring).
      apply Qcplus_le_compat; [|apply Qcle_refl].
      apply Qcmult_le_compat_r; [|now apply step_nonneg].
      apply of_nat_le. lia.
Qed.

Lemma linspace_sorted :
  start <= stop ->
  Behaviour.NonDecreasing (Numpy.linspace start stop (S (S n))).
Proof.
  intros Hle i j Hij Hj.
  rewrite LinspaceFacts.linspace_length in Hj.
  destruct (Nat.eq_dec j (S n)) as [->|Hne].
  - rewrite LinspaceFacts.linspace_last.
    apply linspace_within; [exact Hle|].
    apply nth_In. rewrite LinspaceFacts.linspace_length. lia.
  - rewrite !LinspaceFacts.linspace_nth by lia. fold step.
    apply Qcplus_le_compat; [|apply Qcle_refl].
    apply Qcmult_le_compat_r; [now apply of_nat_le|now apply step_nonneg].
Qed.

End Step.

End OrderFacts.

(** ** Further properties of the range check and of the decorator *)

Section Further.

Variable compact : Quantity Qc -> string.

Local Open Scope Qc_scope.

(** The minimum of a range is unique, and so is its maximum. *)
Lemma is_min_unique (lo lo' : Quantity Qc) (r r' : Quantity (nd Qc)) :
  Behaviour.SameValues r r' ->
  Spec.IsMin lo r -> Spec.IsMin lo' r' -> lo = lo'.
Proof.
  intros [Hu Hv] (U & I & L) (U' & I' & L').
  destruct lo as [x u], lo' as [x' u']. simpl in *.
  f_equal; [|congruence].
  apply Qcle_antisym; [apply L, Hv, I'|apply L', Hv, I].
Qed.

Lemma is_max_unique (hi hi' : Quantity Qc) (r r' : Quantity (nd Qc)) :
  Behaviour.SameValues r r' ->
  Spec.IsMax hi r -> Spec.IsMax hi' r' -> hi = hi'.
Proof.
  intros [Hu Hv] (U & I & L) (U' & I' & L').
  destruct hi as [x u], hi' as [x' u']. simpl in *.
  f_equal; [|congruence].
  apply Qcle_antisym; [apply L', Hv, I|apply L, Hv, I'].
Qed.

Lemma out_of_range_same_values (m : BaseMaterial) (r r' : Quantity (nd Qc)) :
  Behaviour.SameValues r r' -> Spec.OutOfRange m r -> Spec.OutOfRange m r'.
Proof.
  intros [Hu Hv] (b & Hb & x & Hx & H).
  exists b. split; trivial. exists x. split; [now apply Hv|].
  now rewrite <- Hu.
Qed.

(** X1. The default sweep of a material passes the range check of the same
    material: when the two-element bound is ordered, checking the default
    wavelength returns normally and issues no advisory. *)
Theorem default_sweep_passes_check (st : State) (b : Quantity (Qc * Qc)) :
  wavelength_bound (self st) = Some (QuantityBound b) ->
  fst (magnitude b) <= snd (magnitude b) ->
  bind default_wavelength (_check_wavelength compact) st = (Ok tt, st).
Proof.
  intros Hb Hle. unfold bind. rewrite default_wavelength_cases, Hb.
  match goal with |- _check_wavelength _ ?q _ = _ =>
    destruct (check_outcome compact st q) as [[Ho _]|[_ E]]; [|exact E]
  end.
  exfalso. destruct Ho as (b' & Hb' & x & Hx & H).
  assert (b' = QuantityBound b) by congruence. subst b'.
  cbn [Numpy.elements magnitude units] in Hx, H.
  destruct (@OrderFacts.linspace_within _ _ 98 x Hle Hx) as [Hlo Hhi].
  unfold Spec.below, Spec.above, Units.base in H.
  cbn [Bounds.unpack magnitude units fst snd] in H.
  destruct H as [H|H].
  - exact (Qcle_not_lt _ _ (OrderFacts.to_base_le (units b) Hlo) H).
  - exact (Qcle_not_lt _ _ (OrderFacts.to_base_le (units b) Hhi) H).
Qed.

(** X2. When the two elements of the bound are in the wrong order, checking
    the default wavelength issues one advisory: the sweep starts above the
    declared maximum. *)
Theorem default_sweep_inverted_bound_warns
  (st : State) (b : Quantity (Qc * Qc)) :
  wavelength_bound (self st) = Some (QuantityBound b) ->
  snd (magnitude b) < fst (magnitude b) ->
  exists msg,
    bind default_wavelength (_check_wavelength compact) st
    = (Ok tt, mkState (self st) (warnings st ++ [msg])).
Proof.
  intros Hb Hlt. unfold bind. rewrite default_wavelength_cases, Hb.
  match goal with |- exists _, _check_wavelength _ ?q _ = _ =>
    destruct (check_outcome compact st q)
      as [[_ (b' & lo & hi & _ & _ & _ & _ & _ & E)]|[Hn _]]
  end.
  - eexists. exact E.
  - exfalso. apply Hn.
    exists (QuantityBound b). split; [exact Hb|].
    exists (fst (magnitude b)). split.
    + cbn [Numpy.elements magnitude].
      set (sweep := Numpy.linspace _ _ 100).
      assert (Hin : In (nth 0 sweep 0) sweep).
      { apply nth_In. unfold sweep.
        rewrite (@LinspaceFacts.linspace_length _ _ 98). lia. }
      unfold sweep in Hin at 1.
      now rewrite (@LinspaceFacts.linspace_first _ _ 98) in Hin.
    + right. unfold Spec.above, Units.base.
      cbn [Bounds.unpack magnitude units fst snd].
      now apply OrderFacts.to_base_lt.
Qed.

(** X3. The two extremes printed in an advisory exhibit the violation: the
    minimum of the range is not above its maximum, and the minimum is
    strictly below the declared minimum or the maximum is strictly above the
    declared maximum. *)
Theorem advisory_extremes_show_violation
  (st : State) (r : Quantity (nd Qc)) (msg : string) :
  warnings (snd (_check_wavelength compact r st))
  = (warnings st ++ [msg])%list ->
  exists bound lo hi,
    wavelength_bound (self st) = Some bound /\
    Units.min r = Ok lo /\ Units.max r = Ok hi /\
    magnitude lo <= magnitude hi /\
    (Spec.below (magnitude lo) (units lo) (fst (Bounds.unpack bound)) \/
     Spec.above (magnitude hi) (units hi) (snd (Bounds.unpack bound))).
Proof.
  intro Hmsg.
  destruct (check_outcome compact st r)
    as [[Ho (b & lo & hi & Hb & Hlo & Hhi & Hmin & Hmax & E)]|[_ E]].
  2:{ rewrite E in Hmsg. simpl in Hmsg. now apply app_one_neq in Hmsg. }
  exists b, lo, hi. repeat (split; trivial).
  - destruct Hmin as (_ & Hin & _), Hmax as (_ & _ & Hle). now apply Hle.
  - destruct Ho as (b' & Hb' & x & Hx & H).
    assert (b' = b) by congruence. subst b'.
    destruct Hmin as (Ulo & _ & Lmin), Hmax as (Uhi & _ & Lmax).
    unfold Spec.below, Spec.above in *. rewrite Ulo, Uhi.
    destruct H as [H|H]; [left|right].
    + eapply Qcle_lt_trans; [|exact H].
      apply OrderFacts.to_base_le. now apply Lmin.
    + eapply Qclt_le_trans; [exact H|].
      apply OrderFacts.to_base_le. now apply Lmax.
Qed.

(** X4. The range check does not tell the two shapes of a bound apart: a
    tuple of two quantities and one two-element quantity holding the same
    values in the same unit give the same result and the same warnings. *)
Theorem check_ignores_bound_shape
  (file : string) (lo hi : Qc) (u : Unit) (ws : list string)
  (r : Quantity (nd Qc)) :
  let as_tuple :=
    mkMaterial file (Some (TupleBound (mkQuantity lo u, mkQuantity hi u))) in
  let as_quantity :=
    mkMaterial file (Some (QuantityBound (mkQuantity (lo, hi) u))) in
  fst (_check_wavelength compact r (mkState as_tuple ws))
  = fst (_check_wavelength compact r (mkState as_quantity ws)) /\
  warnings (snd (_check_wavelength compact r (mkState as_tuple ws)))
  = warnings (snd (_check_wavelength compact r (mkState as_quantity ws))).
Proof.
  intros as_tuple as_quantity.
  unfold _check_wavelength, bind, get_self, lift. simpl.
  destruct (Numpy.or _ _) as [outside|e]; [|split; reflexivity].
  destruct (Numpy.any outside); [|split; reflexivity].
  destruct (Units.min r) as [range_min|e]; [|split; reflexivity].
  destruct (Units.max r) as [range_max|e]; split; reflexivity.
Qed.

(** X5. The range check depends on the range only through its unit and the
    set of its values: the order of the elements, repetitions, and whether a
    single value comes as a scalar or as a one-element array change neither
    the decision nor the text of the advisory. *)
Theorem check_depends_on_values_only
  (st : State) (r r' : Quantity (nd Qc)) :
  Behaviour.SameValues r r' ->
  _check_wavelength compact r st = _check_wavelength compact r' st.
Proof.
  intro Hsame.
  destruct (check_outcome compact st r)
    as [[Ho (b & lo & hi & Hb & _ & _ & Hmin & Hmax & E)]|[Hn E]];
  destruct (check_outcome compact st r')
    as [[Ho' (b' & lo' & hi' & Hb' & _ & _ & Hmin' & Hmax' & E')]|[Hn' E']];
    rewrite E, E'.
  - assert (b' = b) by congruence. subst b'.
    rewrite (is_min_unique Hsame Hmin Hmin'), (is_max_unique Hsame Hmax Hmax').
    reflexivity.
  - exfalso. apply Hn'. exact (out_of_range_same_values Hsame Ho).
  - exfalso. apply Hn.
    apply (@out_of_range_same_values _ r' r); [|exact Ho'].
    destruct Hsame as [Hu Hv]. split; [now symmetry|].
    intro x. symmetry. apply Hv.
  - reflexivity.
Qed.

(** X6. When the first element of the bound is not above the second, the
    default sweep handed to a wrapped method is sorted: no sample is below
    an earlier one. *)
Theorem default_sweep_sorted (st : State) (b : Quantity (Qc * Qc)) :
  wavelength_bound (self st) = Some (QuantityBound b) ->
  fst (magnitude b) <= snd (magnitude b) ->
  exists sweep,
    Behaviour.NonDecreasing sweep /\
    forall (Args R : Type) (func : Quantity (nd Qc) -> Args -> M R)
           (args : Args),
      ensure_units func None args st
      = func (mkQuantity (Array sweep) (units b)) args st.
Proof.
  intros Hb Hle.
  exists (Numpy.linspace (fst (magnitude b)) (snd (magnitude b)) 100).
  split; [exact (@OrderFacts.linspace_sorted _ _ 98 Hle)|].
  intros Args R func args. unfold ensure_units.
  rewrite wrapper_default, default_wavelength_cases, Hb. reflexivity.
Qed.

(** X7. Decorating a method twice is the same as decorating it once: the
    inner wrapper receives a quantity and hands it on. *)
Theorem ensure_units_twice
  (Args R : Type) (func : Quantity (nd Qc) -> Args -> M R)
  (wavelength : option Wavelength) (args : Args) (st : State) :
  Behaviour.twice_wrapped func wavelength args st
  = ensure_units func wavelength args st.
Proof.
  unfold Behaviour.twice_wrapped, ensure_units.
  destruct wavelength as [[value|q]|]; reflexivity.
Qed.

(** X8. Narrowing a range cannot make the check complain: when a range
    passes without advisory, so does every range of the same unit whose
    values are all among its values. *)
Theorem check_accepts_sub_ranges (st : State) (r r' : Quantity (nd Qc)) :
  units r' = units r ->
  incl (Numpy.elements (magnitude r')) (Numpy.elements (magnitude r)) ->
  _check_wavelength compact r st = (Ok tt, st) ->
  _check_wavelength compact r' st = (Ok tt, st).
Proof.
  intros Hu Hincl Hquiet.
  destruct (check_outcome compact st r')
    as [[(b & Hb & x & Hx & H) _]|[_ E]]; [|exact E].
  exfalso.
  destruct (check_outcome compact st r)
    as [[_ (b0 & lo & hi & _ & _ & _ & _ & _ & E)]|[Hn _]].
  - rewrite E in Hquiet. injection Hquiet as Hst.
    apply (f_equal warnings) in Hst. simpl in Hst. symmetry in Hst.
    now apply app_one_neq in Hst.
  - apply Hn. exists b. split; trivial. exists x.
    split; [now apply Hincl|]. now rewrite <- Hu.
Qed.

End Further.

(** ** The further properties at the sample data *)

Section FurtherInstances.

Import Sample.

Local Open Scope Qc_scope.

Lemma default_sweep_passes_check_witness :
  bind default_wavelength (_check_wavelength show) (fresh glass)
  = (Ok tt, fresh glass).
Proof.
  apply (@default_sweep_passes_check show (fresh glass)
           (mkQuantity (Q2Qc (1 # 2), Q2Qc 2) micrometer)).
  - reflexivity.
  - unfold Qcle, Qle. simpl. lia.
Defined.

Lemma default_sweep_inverted_bound_warns_witness :
  exists msg,
    bind default_wavelength (_check_wavelength show) (fresh inverted)
    = (Ok tt, mkState (self (fresh inverted))
                      (warnings (fresh inverted) ++ [msg])).
Proof.
  apply (@default_sweep_inverted_bound_warns show (fresh inverted)
           (mkQuantity (Q2Qc 2, Q2Qc (1 # 2)) micrometer)).
  - reflexivity.
  - vm_compute. reflexivity.
Defined.

Lemma advisory_extremes_show_violation_witness :
  exists bound lo hi,
    wavelength_bound (self (fresh glass)) = Some bound /\
    Units.min wide = Ok lo /\ Units.max wide = Ok hi /\
    magnitude lo <= magnitude hi /\
    (Spec.below (magnitude lo) (units lo) (fst (Bounds.unpack bound)) \/
     Spec.above (magnitude hi) (units hi) (snd (Bounds.unpack bound))).
Proof.
  apply (@advisory_extremes_show_violation show (fresh glass) wide
           ("Wavelength range goes from 2/5 um to 3/1 um which is outside the "
            ++ "allowable range of 1/2 um to 2/1 um µm. [Material: BK7]")).
  vm_compute. reflexivity.
Defined.

Lemma check_depends_on_values_only_witness :
  _check_wavelength show wide (fresh glass)
  = _check_wavelength show wide_shuffled (fresh glass).
Proof.
  apply (@check_depends_on_values_only show (fresh glass) wide wide_shuffled).
  split; [reflexivity|].
  intro x. simpl. tauto.
Defined.

Lemma default_sweep_sorted_witness :
  exists sweep,
    Behaviour.NonDecreasing sweep /\
    forall (Args R : Type) (func : Quantity (nd Qc) -> Args -> M R)
           (args : Args),
      ensure_units func None args (fresh glass)
      = func (mkQuantity (Array sweep) micrometer) args (fresh glass).
Proof.
  apply (@default_sweep_sorted (fresh glass)
           (mkQuantity (Q2Qc (1 # 2), Q2Qc 2) micrometer)).
  - reflexivity.
  - unfold Qcle, Qle. simpl. lia.
Defined.

Lemma check_accepts_sub_ranges_witness :
  _check_wavelength show telecom (fresh glass) = (Ok tt, fresh glass).
Proof.
  apply (@check_accepts_sub_ranges show (fresh glass)
           (mkQuantity (Array [Q2Qc 600; Q2Qc 1550]) nanometer) telecom).
  - reflexivity.
  - intros x Hx. simpl in *. tauto.
  - vm_compute. reflexivity.
Defined.

End FurtherInstances.
